(** * polars_units: unit-carrying column expressions

    A shallow embedding of [polars_units/uexpr.py].  The class [UExpr] wraps
    an expression of the query engine together with a unit and a units
    registry; its operators build new expressions and decide which unit and
    which registry the result carries.

    The two collaborators of the class are kept at arm's length, as the
    source keeps them:
    - the units engine (pint) is an interface, [UnitsEngine];
    - the query engine (polars) is an expression tree, [Expr], for the
      operators the class applies itself, and an interface, [ExprEngine],
      for the attributes that [__getattr__] forwards by name.

    Python floats are idealised as rationals ([Q]). *)

From Stdlib Require Import ZArith QArith Qabs Lia.
From stdpp Require Import base option list gmap strings.

Set Default Proof Using "Type".
Set Warnings "-register-all".
Local Open Scope string_scope.

(** ** Scalars and expressions of the query engine *)

(** The operands accepted by [isinstance(other, (int, float))]: [bool] is a
    subclass of [int], so a boolean passes the test as well. *)
Inductive scalar : Type :=
| SInt (n : Z)
| SFloat (q : Q)
| SBool (b : bool).

Inductive arith_op : Type := OAdd | OSub | OMul | ODiv | OPow.
Inductive cmp_op : Type := CLt | CLe | CGt | CGe | CEq | CNe.

(** A [pl.Expr]: the lazy expression tree that the operators of the query
    engine build.  A Python scalar met by an operator becomes a literal. *)
Inductive Expr : Type :=
| ECol (name : string)
| ELit (k : scalar)
| EArith (op : arith_op) (l r : Expr)
| ECmp (op : cmp_op) (l r : Expr)
| ENeg (e : Expr)
| EAbs (e : Expr)
| ESqrt (e : Expr)
| EAlias (e : Expr) (name : string)
| ECall (name : string) (recv : Expr) (args : list Expr).

Definition scalar_value (k : scalar) : Q :=
  match k with
  | SInt n => inject_Z n
  | SFloat q => q
  | SBool b => if b then 1%Q else 0%Q
  end.

(** Row-wise meaning of the field fragment of an expression, over a row that
    gives every column a rational.  Outside that fragment there is no
    value.  The arithmetic is exact, where the engine computes in machine
    numbers: [eval] tells which operations an expression applies to which
    operands, and nothing here relies on an identity of exact arithmetic
    that rounding breaks. *)
Fixpoint eval (row : string → Q) (e : Expr) : option Q :=
  match e with
  | ECol c => Some (row c)
  | ELit k => Some (scalar_value k)
  | EArith op l r =>
      match eval row l, eval row r with
      | Some x, Some y =>
          match op with
          | OAdd => Some (x + y)%Q
          | OSub => Some (x - y)%Q
          | OMul => Some (x * y)%Q
          | ODiv => Some (x / y)%Q
          | OPow => None
          end
      | _, _ => None
      end
  | ENeg e' => Qopp <$> eval row e'
  | EAbs e' => Qabs <$> eval row e'
  | EAlias e' _ => eval row e'
  | ECmp _ _ _ | ESqrt _ | ECall _ _ _ => None
  end.

(** ** The units engine *)

(** What the class asks of pint.  [ureg_Unit r s] is [r.Unit(s)], which
    fails on a name the registry does not define; [conversion_factor u v] is
    [(1 * u).to(v).magnitude], which fails when [u] and [v] differ in
    dimension; [unit_ne u v] is the test [u != v] on units of one registry
    (pint refuses to compare units of two registries: the operands of one
    operation are taken to be on the same registry). *)
Class UnitsEngine : Type := {
  Unit : Type;
  Registry : Type;
  Dimensionality : Type;
  default_ureg : Registry;
  ureg_Unit : Registry → string → option Unit;
  ureg_dimensionless : Registry → Unit;
  unit_mul : Unit → Unit → Unit;
  unit_div : Unit → Unit → Unit;
  unit_pow : Unit → scalar → Unit;
  unit_ne : Unit → Unit → bool;
  unit_dimensionless : Unit → bool;
  unit_dimensionality : Unit → Dimensionality;
  conversion_factor : Unit → Unit → option Q;
}.

Section UExpr.
Context `{UE : UnitsEngine}.

(** ** Exceptions and results *)

Inductive exn : Type :=
| AttributeError (msg : string)
| TypeError (msg : string)
| DimensionalityError (u1 u2 : Unit) (msg : string)
| UndefinedUnitError (name : string)
| EngineError (msg : string).

Inductive outcome (A : Type) : Type :=
| Ok (a : A)
| Raise (e : exn).
Global Arguments Ok {A} a.
Global Arguments Raise {A} e.

Global Instance outcome_ret : MRet outcome := @Ok.
Global Instance outcome_bind : MBind outcome := λ A B f m,
  match m with
  | Ok a => f a
  | Raise e => Raise e
  end.
Global Instance outcome_fmap : FMap outcome := λ A B f m,
  match m with
  | Ok a => Ok (f a)
  | Raise e => Raise e
  end.

(** ** The class *)

Record UExpr : Type := mkUExpr {
  expr : Expr;
  unit : Unit;
  ureg : Registry;
}.

(** The [unit] argument of the constructor and of [to]: a string to resolve
    in the registry, or a unit object. *)
Inductive unit_arg : Type :=
| UnitStr (s : string)
| UnitObj (u : Unit).

Definition resolve_unit (r : Registry) (u : unit_arg) : outcome Unit :=
  match u with
  | UnitStr s =>
      match ureg_Unit r s with
      | Some u' => Ok u'
      | None => Raise (UndefinedUnitError s)
      end
  | UnitObj u' => Ok u'
  end.

(** [UExpr.__init__]: without a registry argument the module's
    [default_ureg] is taken. *)
Definition UExpr_init (e : Expr) (u : unit_arg) (unit_registry : option Registry)
  : outcome UExpr :=
  let r := default default_ureg unit_registry in
  u' ← resolve_unit r u;
  Ok (mkUExpr e u' r).

(** [UExpr.col] *)
Definition col (name : string) (u : unit_arg) (unit_registry : option Registry)
  : outcome UExpr :=
  let r := default default_ureg unit_registry in
  u' ← resolve_unit r u;
  UExpr_init (ECol name) (UnitObj u') (Some r).

Definition convert (u v : Unit) : outcome Q :=
  match conversion_factor u v with
  | Some f => Ok f
  | None => Raise (DimensionalityError u v "")
  end.

(** [UExpr.to] *)
Definition to (self : UExpr) (new_unit : unit_arg) : outcome UExpr :=
  new_unit' ← resolve_unit (ureg self) new_unit;
  factor ← convert (unit self) new_unit';
  UExpr_init (EArith OMul (expr self) (ELit (SFloat factor)))
             (UnitObj new_unit') (Some (ureg self)).

Definition dimensionality (self : UExpr) : Dimensionality :=
  unit_dimensionality (unit self).

Definition is_dimensionless (self : UExpr) : bool :=
  unit_dimensionless (unit self).

(** [UExpr._require_dimensionless] *)
Definition _require_dimensionless (self : UExpr) (op_name : string) : outcome () :=
  if negb (is_dimensionless self)
  then Raise (DimensionalityError (unit self) (ureg_dimensionless (ureg self))
                (op_name +:+ " requires a dimensionless quantity"))
  else Ok ().

(** ** Python values met by the operators *)

(** An operand or argument: a [UExpr], a numeric scalar, a plain engine
    expression, a string, [None], or an instance of some other class.  Of
    such an instance the operators only ever see its class and, through the
    interpreter, its reflected [__rmul__] and [__rtruediv__] when it defines
    them. *)
Inductive value : Type :=
| VUExpr (u : UExpr)
| VNum (k : scalar)
| VExpr (e : Expr)
| VStr (s : string)
| VNone
| VObj (module cls : string) (rmul rtruediv : option (UExpr → outcome value))
| VNotImplemented.

(** [type(x).__name__] *)
Definition type_name (x : value) : string :=
  match x with
  | VUExpr _ => "UExpr"
  | VNum (SInt _) => "int"
  | VNum (SFloat _) => "float"
  | VNum (SBool _) => "bool"
  | VExpr _ => "Expr"
  | VStr _ => "str"
  | VNone => "NoneType"
  | VObj _ cls _ _ => cls
  | VNotImplemented => "NotImplementedType"
  end.

(** [type(x).__module__], empty for the built-in types, whose [str] shows
    the bare name. *)
Definition type_module (x : value) : string :=
  match x with
  | VUExpr _ => "polars_units.uexpr."
  | VExpr _ => "polars.expr.expr."
  | VObj module _ _ _ => module +:+ "."
  | _ => ""
  end.

(** [str(type(x))], as the f-strings of the error messages print it. *)
Definition type_repr (x : value) : string :=
  "<class '" +:+ type_module x +:+ type_name x +:+ "'>".

Definition UExpr_type_repr : string := "<class 'polars_units.uexpr.UExpr'>".

(** ** Same-dimension operators *)

(** [UExpr._binary_op_same_dim]; [op] is the arithmetic the lambda applies
    to the two engine operands. *)
Definition _binary_op_same_dim (self : UExpr) (other : value) (op : arith_op)
  : outcome UExpr :=
  match other with
  | VUExpr other =>
      other_converted ←
        (if unit_ne (unit self) (unit other)
         then to other (UnitObj (unit self))
         else Ok other);
      let result_expr := EArith op (expr self) (expr other_converted) in
      UExpr_init result_expr (UnitObj (unit self)) (Some (ureg self))
  | VNum k =>
      let result_expr := EArith op (expr self) (ELit k) in
      UExpr_init result_expr (UnitObj (unit self)) (Some (ureg self))
  | _ =>
      Raise (TypeError ("Unsupported operand type(s) for operation: '"
                        +:+ UExpr_type_repr +:+ "' and '" +:+ type_repr other +:+ "'"))
  end.

(** [UExpr._cmp_same_dim]: the result is a plain engine expression. *)
Definition _cmp_same_dim (self : UExpr) (other : value) (op : cmp_op)
  : outcome Expr :=
  match other with
  | VUExpr other =>
      other_converted ←
        (if unit_ne (unit self) (unit other)
         then to other (UnitObj (unit self))
         else Ok other);
      Ok (ECmp op (expr self) (expr other_converted))
  | VNum k => Ok (ECmp op (expr self) (ELit k))
  | _ =>
      Raise (TypeError ("Unsupported operand type(s) for comparison: '"
                        +:+ UExpr_type_repr +:+ "' and '" +:+ type_repr other +:+ "'"))
  end.

Definition __add__ (self : UExpr) (other : value) : outcome UExpr :=
  _binary_op_same_dim self other OAdd.

Definition __sub__ (self : UExpr) (other : value) : outcome UExpr :=
  _binary_op_same_dim self other OSub.

Definition __lt__ (self : UExpr) (other : value) : outcome Expr :=
  _cmp_same_dim self other CLt.

Definition __le__ (self : UExpr) (other : value) : outcome Expr :=
  _cmp_same_dim self other CLe.

Definition __gt__ (self : UExpr) (other : value) : outcome Expr :=
  _cmp_same_dim self other CGt.

Definition __ge__ (self : UExpr) (other : value) : outcome Expr :=
  _cmp_same_dim self other CGe.

Definition is_UExpr (x : value) : bool :=
  match x with VUExpr _ => true | _ => false end.


Definition __eq__ (self : UExpr) (other : value) : outcome Expr :=
  if negb (is_UExpr other)
  then Raise (TypeError "Equality comparison requires another UExpr")
  else _cmp_same_dim self other CEq.

Definition __ne__ (self : UExpr) (other : value) : outcome Expr :=
  if negb (is_UExpr other)
  then Raise (TypeError "Inequality comparison requires another UExpr")
  else _cmp_same_dim self other CNe.

(** ** Multiplicative operators *)

(** The methods below return a Python object: a [UExpr], or
    [NotImplemented] when they decline the operand. *)
Definition __mul__ (self : UExpr) (other : value) : outcome value :=
  match other with
  | VUExpr other =>
      let new_unit := unit_mul (unit self) (unit other) in
      VUExpr <$> UExpr_init (EArith OMul (expr self) (expr other)) (UnitObj new_unit) None
  | VNum k =>
      VUExpr <$> UExpr_init (EArith OMul (expr self) (ELit k)) (UnitObj (unit self)) None
  | _ => Ok VNotImplemented
  end.

Definition __rmul__ (self : UExpr) (other : value) : outcome value :=
  __mul__ self other.

Definition __truediv__ (self : UExpr) (other : value) : outcome value :=
  match other with
  | VUExpr other =>
      let new_unit := unit_div (unit self) (unit other) in
      VUExpr <$> UExpr_init (EArith ODiv (expr self) (expr other)) (UnitObj new_unit) None
  | VNum k =>
      VUExpr <$> UExpr_init (EArith ODiv (expr self) (ELit k)) (UnitObj (unit self)) None
  | _ => Ok VNotImplemented
  end.

Definition __rtruediv__ (self : UExpr) (other : value) : outcome value :=
  match other with
  | VNum k =>
      one ← resolve_unit (ureg self) (UnitStr "dimensionless");
      let new_unit := unit_div one (unit self) in
      VUExpr <$> UExpr_init (EArith ODiv (ELit k) (expr self)) (UnitObj new_unit)
                            (Some (ureg self))
  | _ => Ok VNotImplemented
  end.

Definition __pow__ (self : UExpr) (other : value) : outcome value :=
  match other with
  | VNum k =>
      let new_unit := unit_pow (unit self) k in
      VUExpr <$> UExpr_init (EArith OPow (expr self) (ELit k)) (UnitObj new_unit) None
  | _ => Ok VNotImplemented
  end.

Definition __rpow__ (self : UExpr) (other : value) : outcome value :=
  match other with
  | VNum k =>
      VUExpr <$> UExpr_init (EArith OPow (ELit k) (expr self)) (UnitObj (unit self)) None
  | _ => Ok VNotImplemented
  end.

Definition sqrt (self : UExpr) : outcome UExpr :=
  UExpr_init (ESqrt (expr self)) (UnitObj (unit_pow (unit self) (SFloat 0.5)))
             (Some (ureg self)).

Definition unwrap (self : UExpr) : Expr := expr self.

Definition alias (self : UExpr) (name : string) : Expr := EAlias (expr self) name.

Definition __abs__ (self : UExpr) : outcome UExpr :=
  UExpr_init (EAbs (expr self)) (UnitObj (unit self)) (Some (ureg self)).

Definition __neg__ (self : UExpr) : outcome UExpr :=
  UExpr_init (ENeg (expr self)) (UnitObj (unit self)) (Some (ureg self)).

(** ** The interpreter's protocol for binary operators *)

(** [a * x], [a / x] and [a ** x] first call the method of the left
    operand.  When it returns [NotImplemented] and the right operand is of
    another type, the interpreter calls the reflected method of the right
    operand, and raises [TypeError] itself when there is none or when that
    one declines too. *)
Inductive binop : Type := BMul | BDiv | BPow.

Definition symbol (op : binop) : string :=
  match op with
  | BMul => "*"
  | BDiv => "/"
  | BPow => "** or pow()"
  end.

Definition forward_method (op : binop) : UExpr → value → outcome value :=
  match op with
  | BMul => __mul__
  | BDiv => __truediv__
  | BPow => __pow__
  end.

Definition reflected_method (op : binop) : UExpr → value → outcome value :=
  match op with
  | BMul => __rmul__
  | BDiv => __rtruediv__
  | BPow => __rpow__
  end.

(** The part of the query engine that is reached by name, or by an operator
    whose left operand declined: [expr_getattr e name] is
    [getattr(e, name)], absent when the engine raises [AttributeError];
    [expr_reflected op e a] is the reflected operator method of [pl.Expr]
    applied to a [UExpr] left operand. *)
Inductive attr : Type :=
| AttrValue (v : value)
| AttrMethod (m : list value → gmap string value → outcome value).

Class ExprEngine : Type := {
  expr_getattr : Expr → string → option attr;
  expr_reflected : binop → Expr → UExpr → outcome value;
}.

Context `{EE : ExprEngine}.

(** The reflected method that the type of the right operand [x] has for a
    [UExpr] on its left.  The numeric types have one, which declines a
    [UExpr]; [str] and [None] have none in their number slots. *)
Definition reflected_of (op : binop) (x : value) : option (UExpr → outcome value) :=
  match x with
  | VObj _ _ rmul rtruediv =>
      match op with
      | BMul => rmul
      | BDiv => rtruediv
      | BPow => None
      end
  | VExpr e => Some (expr_reflected op e)
  | VNum _ => Some (λ _, Ok VNotImplemented)
  | VUExpr _ | VStr _ | VNone | VNotImplemented => None
  end.

(** The interpreter's own [TypeError].  A [str] on the right of [*] is a
    sequence, and the failed repetition names the left operand only. *)
Definition unsupported_operand (op : binop) (x : value) : exn :=
  match op, x with
  | BMul, VStr _ => TypeError "can't multiply sequence by non-int of type 'UExpr'"
  | _, _ =>
      TypeError ("unsupported operand type(s) for " +:+ symbol op
                 +:+ ": 'UExpr' and '" +:+ type_name x +:+ "'")
  end.

(** [a op x] for a [UExpr] [a]. *)
Definition binary_op (op : binop) (a : UExpr) (x : value) : outcome value :=
  r ← forward_method op a x;
  match r with
  | VNotImplemented =>
      match reflected_of op x with
      | Some rmethod =>
          r' ← rmethod a;
          match r' with
          | VNotImplemented => Raise (unsupported_operand op x)
          | _ => Ok r'
          end
      | None => Raise (unsupported_operand op x)
      end
  | _ => Ok r
  end.

(** [k op a] for a numeric scalar [k]: [int] and [float] decline a [UExpr],
    so the reflected method of [a] decides. *)
Definition scalar_binary_op (op : binop) (k : scalar) (a : UExpr) : outcome value :=
  r ← reflected_method op a (VNum k);
  match r with
  | VNotImplemented =>
      Raise (TypeError ("unsupported operand type(s) for " +:+ symbol op +:+ ": '"
                        +:+ type_name (VNum k) +:+ "' and 'UExpr'"))
  | _ => Ok r
  end.


(** [a + x] and [a - x]: the methods never decline, they raise. *)
Definition add (a : UExpr) (x : value) : outcome value := VUExpr <$> __add__ a x.
Definition sub (a : UExpr) (x : value) : outcome value := VUExpr <$> __sub__ a x.

(** [a == x], [a != x] and the orderings call the method of [a] first; none
    of them declines. *)
Definition compare (op : cmp_op) (a : UExpr) (x : value) : outcome value :=
  VExpr <$> match op with
            | CLt => __lt__ a x
            | CLe => __le__ a x
            | CGt => __gt__ a x
            | CGe => __ge__ a x
            | CEq => __eq__ a x
            | CNe => __ne__ a x
            end.

(** ** Attribute forwarding *)

(** What happens inside the query engine on the forwarding path is recorded:
    a computation returns the calls it made to the engine, in order, with
    its result. *)
Inductive engine_event : Type :=
| Getattr (e : Expr) (name : string)
| Call (e : Expr) (name : string) (args : list value) (kwargs : gmap string value).

Definition traced (A : Type) : Type := list engine_event * outcome A.

Global Instance traced_ret : MRet traced := λ A a, ([], Ok a).
Global Instance traced_bind : MBind traced := λ A B f m,
  match m with
  | (t, Ok a) => let '(t', r) := f a in ((t ++ t')%list, r)
  | (t, Raise e) => (t, Raise e)
  end.

Definition lift {A} (m : outcome A) : traced A := ([], m).

Definition engine_getattr (e : Expr) (name : string) : traced attr :=
  ([Getattr e name],
   match expr_getattr e name with
   | Some a => Ok a
   | None => Raise (AttributeError ("'Expr' object has no attribute '" +:+ name +:+ "'"))
   end).

Definition engine_call (e : Expr) (name : string)
    (m : list value → gmap string value → outcome value)
    (args : list value) (kwargs : gmap string value) : traced value :=
  ([Call e name args kwargs], m args kwargs).

(** The set built in [__getattr__]. *)
Definition dimensionless_methods : gset string :=
  list_to_set
    ["exp"; "log"; "log10"; "log1p"; "sin"; "cos"; "tan"; "sinh"; "cosh"; "tanh";
     "arcsin"; "arccos"; "arctan"; "arcsinh"; "arccosh"; "arctanh"; "cot";
     "degrees"; "radians"; "entropy"].

(** The names that ordinary lookup finds on an instance: the three fields
    set by [__init__], what the class body defines, and what every class
    inherits from [object]. *)
Definition class_members : gset string :=
  list_to_set
    ["__init__"; "__getattr__"; "col"; "to"; "dimensionality"; "is_dimensionless";
     "_require_dimensionless"; "__add__"; "__sub__"; "__mul__"; "__rmul__";
     "__truediv__"; "__rtruediv__"; "__pow__"; "__rpow__"; "sqrt"; "unwrap";
     "alias"; "__lt__"; "__le__"; "__gt__"; "__ge__"; "__eq__"; "__ne__";
     "__abs__"; "__neg__"; "_binary_op_same_dim"; "_cmp_same_dim"].

Definition object_members : gset string :=
  list_to_set
    ["__class__"; "__delattr__"; "__dict__"; "__dir__"; "__doc__"; "__eq__";
     "__format__"; "__ge__"; "__getattribute__"; "__getstate__"; "__gt__";
     "__hash__"; "__init__"; "__init_subclass__"; "__le__"; "__lt__";
     "__module__"; "__ne__"; "__new__"; "__reduce__"; "__reduce_ex__";
     "__repr__"; "__setattr__"; "__sizeof__"; "__str__"; "__subclasshook__";
     "__weakref__"].

Global Arguments dimensionless_methods : simpl never.
Global Arguments class_members : simpl never.
Global Arguments object_members : simpl never.

Inductive own_attr : Type :=
| OwnExpr (e : Expr)
| OwnUnit (u : Unit)
| OwnUreg (r : Registry)
| OwnMember (name : string).

(** [object.__getattribute__(self, name)]; [None] stands for its
    [AttributeError]. *)
Definition object_getattribute (self : UExpr) (name : string) : option own_attr :=
  if decide (name = "expr") then Some (OwnExpr (expr self))
  else if decide (name = "ureg") then Some (OwnUreg (ureg self))
  else if decide (name = "unit") then Some (OwnUnit (unit self))
  else if decide (name ∈ class_members ∪ object_members) then Some (OwnMember name)
  else None.

(** What an attribute access yields: an attribute of the [UExpr] itself, an
    attribute of the engine expression passed through as it is, or the
    closure [method] around a callable of the engine. *)
Inductive resolved : Type :=
| Own (o : own_attr)
| Plain (v : value)
| Forwarded (method : list value → gmap string value → traced value).

Definition unwrap_arg (arg : value) : value :=
  match arg with
  | VUExpr u => VExpr (expr u)
  | _ => arg
  end.

(** The closure [method] returned by [__getattr__] for the callable [attr]
    of the engine. *)
Definition method (self : UExpr) (name : string)
    (attr : list value → gmap string value → outcome value)
    (args : list value) (kwargs : gmap string value) : traced value :=
  let new_args := unwrap_arg <$> args in
  let new_kwargs := unwrap_arg <$> kwargs in
  result ← engine_call (expr self) name attr new_args new_kwargs;
  match result with
  | VExpr e =>
      let unit :=
        if decide (name ∉ dimensionless_methods)
        then unit self
        else ureg_dimensionless (ureg self) in
      lift (VUExpr <$> UExpr_init e (UnitObj unit) (Some (ureg self)))
  | _ => mret result
  end.

(** [UExpr.__getattr__] *)
Definition __getattr__ (self : UExpr) (name : string) : traced resolved :=
  if String.prefix "_" name
  then lift (Raise (AttributeError ("'UExpr' object has no attribute '" +:+ name +:+ "'")))
  else
    match object_getattribute self name with
    | Some o => mret (Own o)
    | None =>
        _ ← (if decide (name ∈ dimensionless_methods)
             then lift (_require_dimensionless self name)
             else mret ());
        attr ← engine_getattr (expr self) name;
        match attr with
        | AttrMethod m => mret (Forwarded (method self name m))
        | AttrValue v => mret (Plain v)
        end
    end.

(** [self.name]: ordinary lookup, and [__getattr__] only when that fails. *)
Definition getattr (self : UExpr) (name : string) : traced resolved :=
  match object_getattribute self name with
  | Some o => mret (Own o)
  | None => __getattr__ self name
  end.

(** ** Chains of operations *)

(** The operand [x] of an operation on [a] is a [UExpr] on the registry of
    [a], or no [UExpr] at all. *)
Definition on_registry_of (a : UExpr) (x : value) : Prop :=
  match x with
  | VUExpr o => ureg o = ureg a
  | _ => True
  end.

(** [derives a b]: [b] is the result of one operation on [a] that hands
    [unit_registry=self.ureg] to the constructor: [+] and [-] with an
    operand on the same registry, [to], [sqrt], [abs], unary [-], a scalar
    divided by [a], or a forwarded call whose result the closure wraps. *)
Inductive derives : UExpr → UExpr → Prop :=
| derives_add a x b : on_registry_of a x → __add__ a x = Ok b → derives a b
| derives_sub a x b : on_registry_of a x → __sub__ a x = Ok b → derives a b
| derives_to a u b : to a u = Ok b → derives a b
| derives_sqrt a b : sqrt a = Ok b → derives a b
| derives_abs a b : __abs__ a = Ok b → derives a b
| derives_neg a b : __neg__ a = Ok b → derives a b
| derives_rtruediv a k b : __rtruediv__ a (VNum k) = Ok (VUExpr b) → derives a b
| derives_forward a name m args kwargs t e b :
    m (unwrap_arg <$> args) (unwrap_arg <$> kwargs) = Ok (VExpr e) →
    method a name m args kwargs = (t, Ok (VUExpr b)) →
    derives a b.

End UExpr.

(** ** A small instance of the two engines

    Units are symbolic products of named units, as pint prints them; a named
    unit has a scale to the base unit of its dimension.  The registry [0] is
    the default one; the others also define the furlong of the test suite.
    The expression engine knows the methods the test suite calls. *)
Module Demo.

Inductive unit_sym : Type :=
| Named (name : string)
| One
| Prod (u v : unit_sym)
| Quot (u v : unit_sym)
| Power (u : unit_sym) (p : scalar).

Global Instance Q_eq_dec : EqDecision Q.
Proof. solve_decision. Defined.
Global Instance scalar_eq_dec : EqDecision scalar.
Proof. solve_decision. Defined.
Global Instance unit_sym_eq_dec : EqDecision unit_sym.
Proof. solve_decision. Defined.

(** Scale and dimension of the named units. *)
Definition definitions : gmap string (Q * string) :=
  list_to_map
    [("meter", (1%Q, "length")); ("centimeter", ((1 # 100)%Q, "length"));
     ("furlong", ((201168 # 1000)%Q, "length")); ("second", (1%Q, "time"));
     ("kilogram", (1%Q, "mass"))].

Definition aliases : gmap string string :=
  list_to_map [("m", "meter"); ("cm", "centimeter"); ("s", "second"); ("kg", "kilogram")].

Definition parse (r : nat) (s : string) : option unit_sym :=
  let s' := default s (aliases !! s) in
  if decide (s' = "dimensionless") then Some One
  else if decide (s' = "furlong") then (if decide (r = 0) then None else Some (Named s'))
  else if decide (is_Some (definitions !! s')) then Some (Named s')
  else None.

Definition factor (u v : unit_sym) : option Q :=
  match u, v with
  | Named a, Named b =>
      '(sa, da) ← definitions !! a;
      '(sb, db) ← definitions !! b;
      if decide (da = db) then Some (sa / sb)%Q else None
  | _, _ => if decide (u = v) then Some 1%Q else None
  end.

Fixpoint dimension (u : unit_sym) : list (string * Q) :=
  match u with
  | Named a => from_option (λ d, [(d.2, 1%Q)]) [] (definitions !! a)
  | One => []
  | Prod u v => dimension u ++ dimension v
  | Quot u v => dimension u ++ (prod_map id Qopp <$> dimension v)
  | Power u p => prod_map id (Qmult (scalar_value p)) <$> dimension u
  end.

Global Instance units : UnitsEngine := {|
  Unit := unit_sym;
  Registry := nat;
  Dimensionality := list (string * Q);
  default_ureg := 0;
  ureg_Unit := parse;
  ureg_dimensionless := λ _, One;
  unit_mul := Prod;
  unit_div := Quot;
  unit_pow := Power;
  unit_ne := λ u v, bool_decide (u ≠ v);
  unit_dimensionless := λ u, bool_decide (u = One);
  unit_dimensionality := dimension;
  conversion_factor := factor;
|}.

(** The engine's view of an argument. *)
Definition as_expr (v : value) : option Expr :=
  match v with
  | VExpr e => Some e
  | VNum k => Some (ELit k)
  | VStr s => Some (ECol s)
  | _ => None
  end.

Definition call_node (name : string) (e : Expr)
  : list value → gmap string value → outcome value :=
  λ args _, Ok (VExpr (ECall name e (omap as_expr args))).

Definition expr_methods : gset string :=
  list_to_set ["sum"; "mean"; "min"; "max"; "over"; "dot"; "log"; "exp"; "sin"; "cos"].

Definition lookup_attr (e : Expr) (name : string) : option attr :=
  if decide (name ∈ expr_methods)
  then Some (AttrMethod (call_node name e))
  else if decide (name = "meta")
  then Some (AttrValue (VObj "polars.expr.meta" "ExprMetaNameSpace" None None))
  else if decide (name = "len")
  then Some (AttrMethod (λ _ _, Ok (VNum (SInt 4))))
  else None.

(** The reflected operators of this engine decline a [UExpr] with an error of
    their own. *)
Global Instance exprs : ExprEngine := {|
  expr_getattr := lookup_attr;
  expr_reflected := λ _ _ _,
    Raise (TypeError "cannot create expression literal for value of type UExpr");
|}.

Definition meter : unit_sym := Named "meter".
Definition centimeter : unit_sym := Named "centimeter".
Definition furlong : unit_sym := Named "furlong".

Definition custom_ureg : nat := 1.

Definition a_m : UExpr := mkUExpr (ECol "a") meter 0.
Definition b_cm : UExpr := mkUExpr (ECol "b") centimeter 0.
Definition t_s : UExpr := mkUExpr (ECol "t") (Named "second") 0.
Definition x_dimless : UExpr := mkUExpr (ECol "x") One 0.
Definition dist : UExpr := mkUExpr (ECol "distance") furlong custom_ureg.
Definition dist2 : UExpr := mkUExpr (ECol "distance2") furlong custom_ureg.



End Demo.

(** * Properties *)

Section Properties.
Context `{UE : UnitsEngine} `{EE : !ExprEngine}.

Implicit Types (a b self : UExpr) (x : value) (k : scalar) (name : string).

(** ** The constructor *)

Lemma UExpr_init_obj e u r :
  UExpr_init e (UnitObj u) r = Ok (mkUExpr e u (default default_ureg r)).
Proof. reflexivity. Qed.

Lemma to_obj self v f :
  conversion_factor (unit self) v = Some f →
  to self (UnitObj v)
  = Ok (mkUExpr (EArith OMul (expr self) (ELit (SFloat f))) v (ureg self)).
Proof. intros Hf. unfold to, convert. cbn. rewrite Hf. reflexivity. Qed.

(** ** Which names reach the engine *)

Lemma dimensionless_methods_public name :
  name ∈ dimensionless_methods → String.prefix "_" name = false.
Proof.
  unfold dimensionless_methods. rewrite elem_of_list_to_set.
  rewrite !elem_of_cons, elem_of_nil.
  intros H; repeat (destruct H as [->|H]; [reflexivity|]); destruct H.
Qed.

Lemma dimensionless_methods_not_own self name :
  name ∈ dimensionless_methods → object_getattribute self name = None.
Proof.
  unfold dimensionless_methods. rewrite elem_of_list_to_set.
  rewrite !elem_of_cons, elem_of_nil.
  intros H; repeat (destruct H as [->|H]; [vm_compute; reflexivity|]); destruct H.
Qed.

(** C9: an attribute whose name begins with an underscore and that ordinary
    lookup does not find on the [UExpr] raises [AttributeError]; the engine
    is not consulted. *)
Theorem private_names_not_forwarded self name :
  String.prefix "_" name = true →
  object_getattribute self name = None →
  getattr self name
  = ([], Raise (AttributeError ("'UExpr' object has no attribute '" +:+ name +:+ "'"))).
Proof.
  intros Hpre Hown. unfold getattr, __getattr__.
  rewrite Hown, Hpre. reflexivity.
Qed.

(** C10: [alias] is a method of the class itself, is not forwarded, and
    returns the engine expression renamed: a plain expression, which is no
    [UExpr] and has neither unit nor registry. *)
Theorem alias_returns_plain_expression self name :
  getattr self "alias" = ([], Ok (Own (OwnMember "alias")))
  ∧ alias self name = EAlias (expr self) name
  ∧ is_UExpr (VExpr (alias self name)) = false.
Proof.
  split; [|split]; [|reflexivity..].
  unfold getattr. vm_compute. reflexivity.
Qed.

(** C4: [a == x] and [a != x] raise [TypeError] for every [x] that is not a
    [UExpr], numeric scalars included. *)
Theorem equality_requires_UExpr a x :
  is_UExpr x = false →
  compare CEq a x = Raise (TypeError "Equality comparison requires another UExpr")
  ∧ compare CNe a x = Raise (TypeError "Inequality comparison requires another UExpr").
Proof.
  intros Hx. unfold compare, __eq__, __ne__. rewrite Hx. split; reflexivity.
Qed.

(** C6: the unit of a product is the product of the units, the unit of a
    quotient is the left unit over the right one, the unit of a power is the
    unit raised to the exponent, and [sqrt] raises the unit to 0.5 around
    the square root of the expression. *)
Theorem unit_algebra a b k :
  binary_op BMul a (VUExpr b)
  = Ok (VUExpr (mkUExpr (EArith OMul (expr a) (expr b))
                        (unit_mul (unit a) (unit b)) default_ureg))
  ∧ binary_op BDiv a (VUExpr b)
    = Ok (VUExpr (mkUExpr (EArith ODiv (expr a) (expr b))
                          (unit_div (unit a) (unit b)) default_ureg))
  ∧ binary_op BPow a (VNum k)
    = Ok (VUExpr (mkUExpr (EArith OPow (expr a) (ELit k))
                          (unit_pow (unit a) k) default_ureg))
  ∧ sqrt a
    = Ok (mkUExpr (ESqrt (expr a)) (unit_pow (unit a) (SFloat 0.5)) (ureg a)).
Proof. repeat split. Qed.

(** C7: [a * k] and [k * a] are the same object: the unit of [a] around the
    expression of [a] times the literal [k]. *)
Theorem scalar_mul_commutes a k :
  binary_op BMul a (VNum k) = scalar_binary_op BMul k a
  ∧ scalar_binary_op BMul k a
    = Ok (VUExpr (mkUExpr (EArith OMul (expr a) (ELit k)) (unit a) default_ureg)).
Proof. split; reflexivity. Qed.

(** ** The registry of a result *)

(** The methods that pass [unit_registry=self.ureg] to the constructor keep
    the registry of the receiver. *)
Lemma registry_kept_with_argument a k u :
  (ureg <$> _binary_op_same_dim a (VNum k) OAdd) = Ok (ureg a)
  ∧ (ureg <$> sqrt a) = Ok (ureg a)
  ∧ (ureg <$> __abs__ a) = Ok (ureg a)
  ∧ (ureg <$> __neg__ a) = Ok (ureg a)
  ∧ (∀ b, to a (UnitObj u) = Ok b → ureg b = ureg a).
Proof.
  repeat split. intros b. unfold to, convert. cbn.
  destruct (conversion_factor (unit a) u); cbn; [|discriminate].
  intros [= <-]. reflexivity.
Qed.

(** The methods that call the constructor without it return a [UExpr] on
    [default_ureg], whatever the registries of the operands. *)
Lemma registry_default_without_argument a b k r :
  (__mul__ a (VUExpr b) = Ok (VUExpr r) → ureg r = default_ureg)
  ∧ (__mul__ a (VNum k) = Ok (VUExpr r) → ureg r = default_ureg)
  ∧ (__truediv__ a (VUExpr b) = Ok (VUExpr r) → ureg r = default_ureg)
  ∧ (__truediv__ a (VNum k) = Ok (VUExpr r) → ureg r = default_ureg)
  ∧ (__pow__ a (VNum k) = Ok (VUExpr r) → ureg r = default_ureg)
  ∧ (__rpow__ a (VNum k) = Ok (VUExpr r) → ureg r = default_ureg).
Proof. repeat split; intros [= <-]; reflexivity. Qed.

(** ** Same-dimension operators *)

Lemma convert_right_operand a b f :
  conversion_factor (unit b) (unit a) = Some f →
  (if unit_ne (unit a) (unit b) then to b (UnitObj (unit a)) else Ok b)
  = Ok (if unit_ne (unit a) (unit b)
        then mkUExpr (EArith OMul (expr b) (ELit (SFloat f))) (unit a) (ureg b)
        else b).
Proof.
  intros Hf. destruct (unit_ne (unit a) (unit b)); [|reflexivity].
  apply to_obj, Hf.
Qed.

(** C2: for operands of the same dimension, [+], [-] and the comparisons
    take the right operand in the unit of the left one: its expression times
    the conversion factor when the units differ, its expression as it is
    when they do not; the result of [+] and [-] carries the unit of the left
    operand. *)
Theorem right_operand_converted_to_left_unit a b f :
  conversion_factor (unit b) (unit a) = Some f →
  let rhs := if unit_ne (unit a) (unit b)
             then EArith OMul (expr b) (ELit (SFloat f))
             else expr b in
  add a (VUExpr b) = Ok (VUExpr (mkUExpr (EArith OAdd (expr a) rhs) (unit a) (ureg a)))
  ∧ sub a (VUExpr b) = Ok (VUExpr (mkUExpr (EArith OSub (expr a) rhs) (unit a) (ureg a)))
  ∧ ∀ op, compare op a (VUExpr b) = Ok (VExpr (ECmp op (expr a) rhs)).
Proof.
  intros Hf rhs. subst rhs.
  pose proof (convert_right_operand a b f Hf) as Hc.
  repeat split.
  - unfold add, __add__, _binary_op_same_dim. rewrite Hc.
    destruct (unit_ne (unit a) (unit b)); reflexivity.
  - unfold sub, __sub__, _binary_op_same_dim. rewrite Hc.
    destruct (unit_ne (unit a) (unit b)); reflexivity.
  - intros op.
    assert (Hcmp : _cmp_same_dim a (VUExpr b) op
                   = Ok (ECmp op (expr a)
                           (if unit_ne (unit a) (unit b)
                            then EArith OMul (expr b) (ELit (SFloat f))
                            else expr b))).
    { unfold _cmp_same_dim. rewrite Hc.
      destruct (unit_ne (unit a) (unit b)); reflexivity. }
    destruct op; unfold compare, __lt__, __le__, __gt__, __ge__, __eq__, __ne__;
      cbn [is_UExpr negb]; rewrite Hcmp; reflexivity.
Qed.

(** ** Forwarded calls *)

Lemma getattr_forwarded self name m :
  String.prefix "_" name = false →
  object_getattribute self name = None →
  (name ∈ dimensionless_methods → is_dimensionless self = true) →
  expr_getattr (expr self) name = Some (AttrMethod m) →
  getattr self name
  = ([Getattr (expr self) name], Ok (Forwarded (method self name m))).
Proof.
  intros Hpre Hown Hdim Hattr. unfold getattr, __getattr__.
  rewrite Hown, Hpre.
  destruct (decide (name ∈ dimensionless_methods)) as [Hin|Hout].
  - unfold _require_dimensionless. rewrite (Hdim Hin). cbn.
    rewrite Hattr. reflexivity.
  - cbn. rewrite Hattr. reflexivity.
Qed.

Lemma method_wraps_expression self name m args kwargs e' :
  m (unwrap_arg <$> args) (unwrap_arg <$> kwargs) = Ok (VExpr e') →
  method self name m args kwargs
  = ([Call (expr self) name (unwrap_arg <$> args) (unwrap_arg <$> kwargs)],
     Ok (VUExpr (mkUExpr e'
                   (if decide (name ∈ dimensionless_methods)
                    then ureg_dimensionless (ureg self) else unit self)
                   (ureg self)))).
Proof.
  intros Hm. unfold method, engine_call. cbn. rewrite Hm. cbn.
  destruct (decide (name ∈ dimensionless_methods)) as [Hin|Hout].
  - destruct (decide (name ∉ dimensionless_methods)); [contradiction|reflexivity].
  - destruct (decide (name ∉ dimensionless_methods)); [reflexivity|contradiction].
Qed.

(** A result of the engine that is not an expression is handed back as it
    is. *)
Lemma method_passes_other_results self name m args kwargs v :
  m (unwrap_arg <$> args) (unwrap_arg <$> kwargs) = Ok v →
  (∀ e, v ≠ VExpr e) →
  method self name m args kwargs
  = ([Call (expr self) name (unwrap_arg <$> args) (unwrap_arg <$> kwargs)], Ok v).
Proof.
  intros Hm Hv. unfold method, engine_call. cbn. rewrite Hm.
  destruct v; try reflexivity. destruct (Hv e eq_refl).
Qed.

(** C3: a name of the dimensionless-required set on a receiver that is not
    dimensionless raises [DimensionalityError] with no call to the engine;
    on a dimensionless receiver the wrapped result of such a call carries
    the dimensionless unit; the wrapped result of a forwarded call under any
    other name carries the unit of the receiver. *)
Theorem dimensionless_gate_and_unit_policy self name m args kwargs e' :
  (name ∈ dimensionless_methods →
   is_dimensionless self = false →
   getattr self name
   = ([], Raise (DimensionalityError (unit self) (ureg_dimensionless (ureg self))
                   (name +:+ " requires a dimensionless quantity"))))
  ∧ (name ∈ dimensionless_methods →
     is_dimensionless self = true →
     expr_getattr (expr self) name = Some (AttrMethod m) →
     m (unwrap_arg <$> args) (unwrap_arg <$> kwargs) = Ok (VExpr e') →
     ∃ f, getattr self name = ([Getattr (expr self) name], Ok (Forwarded f))
          ∧ f args kwargs
            = ([Call (expr self) name (unwrap_arg <$> args) (unwrap_arg <$> kwargs)],
               Ok (VUExpr (mkUExpr e' (ureg_dimensionless (ureg self)) (ureg self)))))
  ∧ (name ∉ dimensionless_methods →
     String.prefix "_" name = false →
     object_getattribute self name = None →
     expr_getattr (expr self) name = Some (AttrMethod m) →
     m (unwrap_arg <$> args) (unwrap_arg <$> kwargs) = Ok (VExpr e') →
     ∃ f, getattr self name = ([Getattr (expr self) name], Ok (Forwarded f))
          ∧ f args kwargs
            = ([Call (expr self) name (unwrap_arg <$> args) (unwrap_arg <$> kwargs)],
               Ok (VUExpr (mkUExpr e' (unit self) (ureg self))))).
Proof.
  split; [|split].
  - intros Hin Hdim. unfold getattr, __getattr__.
    rewrite (dimensionless_methods_not_own self name Hin).
    rewrite (dimensionless_methods_public name Hin).
    destruct (decide (name ∈ dimensionless_methods)); [|contradiction].
    unfold _require_dimensionless. rewrite Hdim. reflexivity.
  - intros Hin Hdim Hattr Hm. exists (method self name m). split.
    + apply getattr_forwarded; auto using dimensionless_methods_public,
        dimensionless_methods_not_own.
    + rewrite (method_wraps_expression _ _ _ _ _ _ Hm).
      destruct (decide (name ∈ dimensionless_methods)); [reflexivity|contradiction].
  - intros Hout Hpre Hown Hattr Hm. exists (method self name m). split.
    + apply getattr_forwarded; auto.
    + rewrite (method_wraps_expression _ _ _ _ _ _ Hm).
      destruct (decide (name ∈ dimensionless_methods)); [contradiction|reflexivity].
Qed.

(** ** Operands of other types *)

Lemma unsupported_operand_is_TypeError op x :
  ∃ msg, unsupported_operand op x = TypeError msg.
Proof. destruct op, x; eexists; reflexivity. Qed.


(** * Further properties of the class *)

(** ** Construction and conversion *)

(** [col] succeeds exactly when the registry it works on, the one given or
    else the default one, resolves the unit; the result wraps the column
    reference and keeps that unit and that registry. *)
Theorem col_succeeds_iff name (u : unit_arg) (r : option Registry) a :
  col name u r = Ok a
  ↔ resolve_unit (default default_ureg r) u = Ok (unit a)
    ∧ expr a = ECol name
    ∧ ureg a = default default_ureg r.
Proof.
  unfold col. destruct (resolve_unit (default default_ureg r) u) as [u'|e]; cbn.
  - split.
    + intros [= <-]. auto.
    + intros ([= ->] & He & Hr). destruct a as [ea ua ra]; cbn in *.
      subst. reflexivity.
  - split; [discriminate|]. intros (H & _). discriminate H.
Qed.

(** [to] succeeds exactly when the registry of the receiver resolves the
    target unit and the units engine has a factor from the unit of the
    receiver to it; the result is the expression times that factor, in the
    target unit, on the registry of the receiver. *)
Theorem to_succeeds_iff a (u : unit_arg) b :
  to a u = Ok b
  ↔ ∃ f, resolve_unit (ureg a) u = Ok (unit b)
         ∧ conversion_factor (unit a) (unit b) = Some f
         ∧ expr b = EArith OMul (expr a) (ELit (SFloat f))
         ∧ ureg b = ureg a.
Proof.
  unfold to, convert. destruct (resolve_unit (ureg a) u) as [v|e]; cbn.
  - destruct (conversion_factor (unit a) v) as [f|] eqn:Hf; cbn.
    + split.
      * intros [= <-]. exists f. cbn. auto.
      * intros (f' & [= ->] & Hf' & He & Hr). destruct b as [eb ub rb]; cbn in *.
        rewrite Hf in Hf'. injection Hf' as ->. subst. reflexivity.
    + split; [discriminate|].
      intros (f' & [= ->] & Hf' & _). rewrite Hf in Hf'. discriminate Hf'.
  - split; [discriminate|]. intros (f' & H & _). discriminate H.
Qed.

(** Converting to a unit and back does not simplify: the result is the
    expression times the factor towards the target and then times the
    factor back, in the unit of the receiver and on its registry. *)
Theorem to_and_back a (new_unit : unit_arg) (v : Unit) (f1 f2 : Q) :
  resolve_unit (ureg a) new_unit = Ok v →
  conversion_factor (unit a) v = Some f1 →
  conversion_factor v (unit a) = Some f2 →
  ∃ b,
    to a new_unit = Ok b
    ∧ unit b = v ∧ ureg b = ureg a
    ∧ to b (UnitObj (unit a))
      = Ok (mkUExpr (EArith OMul (EArith OMul (expr a) (ELit (SFloat f1)))
                       (ELit (SFloat f2)))
                    (unit a) (ureg a)).
Proof.
  intros Hv Hf1 Hf2.
  exists (mkUExpr (EArith OMul (expr a) (ELit (SFloat f1))) v (ureg a)).
  split; [|split; [reflexivity|split; [reflexivity|]]].
  - unfold to, convert. rewrite Hv. cbn. rewrite Hf1. reflexivity.
  - apply (to_obj (mkUExpr (EArith OMul (expr a) (ELit (SFloat f1))) v (ureg a))
             (unit a) f2). exact Hf2.
Qed.

(** When the units of the operands differ and the conversion of the right
    operand fails, [+], [-] and all six comparisons fail with the error of
    that conversion. *)
Theorem conversion_error_propagates a b (e : exn) :
  unit_ne (unit a) (unit b) = true →
  to b (UnitObj (unit a)) = Raise e →
  add a (VUExpr b) = Raise e
  ∧ sub a (VUExpr b) = Raise e
  ∧ ∀ op, compare op a (VUExpr b) = Raise e.
Proof.
  intros Hne Hto.
  assert (Hcmp : ∀ op, _cmp_same_dim a (VUExpr b) op = Raise e).
  { intros op. unfold _cmp_same_dim. rewrite Hne, Hto. reflexivity. }
  repeat split.
  - unfold add, __add__, _binary_op_same_dim. rewrite Hne, Hto. reflexivity.
  - unfold sub, __sub__, _binary_op_same_dim. rewrite Hne, Hto. reflexivity.
  - intros op.
    destruct op; unfold compare, __lt__, __le__, __gt__, __ge__, __eq__, __ne__;
      cbn [is_UExpr negb]; rewrite Hcmp; reflexivity.
Qed.

(** Row by row, the sum (difference) of two operands of the same dimension
    is the left value plus (minus) the right value scaled by the conversion
    factor when the units differ, and the right value itself when they do
    not. *)
Theorem rows_of_sum_and_difference a b (f p q : Q) row :
  conversion_factor (unit b) (unit a) = Some f →
  eval row (expr a) = Some p →
  eval row (expr b) = Some q →
  let q' := if unit_ne (unit a) (unit b) then (q * f)%Q else q in
  ∃ s d,
    add a (VUExpr b) = Ok (VUExpr s)
    ∧ eval row (expr s) = Some (p + q')%Q
    ∧ sub a (VUExpr b) = Ok (VUExpr d)
    ∧ eval row (expr d) = Some (p - q')%Q.
Proof.
  intros Hf Hp Hq q'. subst q'.
  pose proof (convert_right_operand a b f Hf) as Hc.
  unfold add, sub, __add__, __sub__, _binary_op_same_dim. rewrite Hc.
  destruct (unit_ne (unit a) (unit b)); cbn [mbind outcome_bind];
    rewrite !UExpr_init_obj; cbn [fmap outcome_fmap];
    eexists _, _; (split; [reflexivity|split; [|split; [reflexivity|]]]);
    cbn [expr eval scalar_value]; rewrite Hp, Hq; reflexivity.
Qed.

(** ** Operands of the orderings *)

(** An ordering comparison with an operand that is no [UExpr] compares a
    numeric scalar directly with the expression, and raises a [TypeError]
    naming both types for anything else. *)
Theorem ordering_with_other_operands (op : cmp_op) a x :
  op ≠ CEq → op ≠ CNe →
  is_UExpr x = false →
  compare op a x
  = match x with
    | VNum k => Ok (VExpr (ECmp op (expr a) (ELit k)))
    | _ =>
        Raise (TypeError ("Unsupported operand type(s) for comparison: '"
                          +:+ "<class 'polars_units.uexpr.UExpr'>" +:+ "' and '"
                          +:+ type_repr x +:+ "'"))
    end.
Proof.
  intros Heq Hne Hx.
  destruct op; try contradiction;
    destruct x; try discriminate Hx; reflexivity.
Qed.

(** ** Reflected division and powers *)

(** [k / a] resolves the name "dimensionless" in the registry of [a]: when
    the registry defines it, the result is the literal over the expression,
    in that unit divided by the unit of [a], on the registry of [a];
    otherwise the error of the registry is raised. *)
Theorem reflected_division k a :
  scalar_binary_op BDiv k a
  = match ureg_Unit (ureg a) "dimensionless" with
    | Some one =>
        Ok (VUExpr (mkUExpr (EArith ODiv (ELit k) (expr a))
                            (unit_div one (unit a)) (ureg a)))
    | None => Raise (UndefinedUnitError "dimensionless")
    end.
Proof.
  unfold scalar_binary_op, reflected_method, __rtruediv__, resolve_unit.
  destruct (ureg_Unit (ureg a) "dimensionless"); reflexivity.
Qed.

(** A [UExpr] is no exponent: [a ** b] raises the interpreter's
    [TypeError]. *)
Theorem exponent_must_not_be_UExpr a b :
  binary_op BPow a (VUExpr b)
  = Raise (TypeError "unsupported operand type(s) for ** or pow(): 'UExpr' and 'UExpr'").
Proof. reflexivity. Qed.

(** The dimensionless gate does not cover the reflected power: on a
    receiver that is not dimensionless [a.exp] raises, while [k ** a] is
    accepted and keeps the unit of [a]. *)
Theorem reflected_power_is_not_gated k a :
  is_dimensionless a = false →
  getattr a "exp"
  = ([], Raise (DimensionalityError (unit a) (ureg_dimensionless (ureg a))
                  "exp requires a dimensionless quantity"))
  ∧ scalar_binary_op BPow k a
    = Ok (VUExpr (mkUExpr (EArith OPow (ELit k) (expr a)) (unit a) default_ureg)).
Proof.
  intros Hdim. split; [|reflexivity].
  unfold getattr, __getattr__.
  assert (Hin : "exp" ∈ dimensionless_methods)
    by (apply (bool_decide_unpack _); vm_compute; exact I).
  rewrite (dimensionless_methods_not_own a "exp" Hin).
  rewrite (dimensionless_methods_public "exp" Hin).
  destruct (decide ("exp" ∈ dimensionless_methods)); [|contradiction].
  unfold _require_dimensionless. rewrite Hdim. reflexivity.
Qed.

(** ** What the forwarder hands to the engine *)

Lemma unwrap_arg_not_UExpr x : is_UExpr (unwrap_arg x) = false.
Proof. destruct x; reflexivity. Qed.

Lemma method_trace self name m args kwargs :
  (method self name m args kwargs).1
  = [Call (expr self) name (unwrap_arg <$> args) (unwrap_arg <$> kwargs)].
Proof.
  unfold method, engine_call. cbn.
  destruct (m (unwrap_arg <$> args) (unwrap_arg <$> kwargs)) as [v|e];
    [destruct v|]; reflexivity.
Qed.

(** The closure calls the engine exactly once, and no argument of that
    call, positional or keyword, is a [UExpr]: each one has been replaced by
    its expression, position by position and key by key. *)
Theorem engine_never_receives_UExpr self name m args kwargs :
  ∃ args' kwargs',
    (method self name m args kwargs).1 = [Call (expr self) name args' kwargs']
    ∧ Forall (λ v, is_UExpr v = false) args'
    ∧ map_Forall (λ _ v, is_UExpr v = false) kwargs'
    ∧ length args' = length args
    ∧ dom kwargs' = dom kwargs
    ∧ (∀ i u, args !! i = Some (VUExpr u) → args' !! i = Some (VExpr (expr u)))
    ∧ (∀ key u, kwargs !! key = Some (VUExpr u) → kwargs' !! key = Some (VExpr (expr u))).
Proof.
  exists (unwrap_arg <$> args), (unwrap_arg <$> kwargs).
  split; [apply method_trace|]. repeat split.
  - apply Forall_fmap, Forall_forall. intros v _. apply unwrap_arg_not_UExpr.
  - intros key v. rewrite lookup_fmap. intros Hv.
    apply fmap_Some in Hv as (w & _ & ->). apply unwrap_arg_not_UExpr.
  - apply length_fmap.
  - apply dom_fmap_L.
  - intros i u Hi. rewrite list_lookup_fmap, Hi. reflexivity.
  - intros key u Hk. rewrite lookup_fmap, Hk. reflexivity.
Qed.

(** For a name that is forwarded and passes the gate, attribute access is
    one lookup on the engine expression: a callable comes back wrapped in
    the closure, any other attribute comes back as it is, and a name the
    engine does not know raises its [AttributeError]. *)
Theorem getattr_engine_lookup self name :
  String.prefix "_" name = false →
  object_getattribute self name = None →
  (name ∈ dimensionless_methods → is_dimensionless self = true) →
  getattr self name
  = ([Getattr (expr self) name],
     match expr_getattr (expr self) name with
     | Some (AttrMethod m) => Ok (Forwarded (method self name m))
     | Some (AttrValue v) => Ok (Plain v)
     | None =>
         Raise (AttributeError ("'Expr' object has no attribute '" +:+ name +:+ "'"))
     end).
Proof.
  intros Hpre Hown Hdim. unfold getattr, __getattr__.
  rewrite Hown, Hpre.
  assert (Hgate : (if decide (name ∈ dimensionless_methods)
                   then lift (_require_dimensionless self name)
                   else mret ()) = ([], Ok ())).
  { destruct (decide (name ∈ dimensionless_methods)) as [Hin|]; [|reflexivity].
    unfold _require_dimensionless. rewrite (Hdim Hin). reflexivity. }
  rewrite Hgate. unfold engine_getattr. cbn.
  destruct (expr_getattr (expr self) name) as [[v|m]|]; reflexivity.
Qed.

(** A result of the engine that is not an expression, and an error of the
    engine, come back from a forwarded call unchanged. *)
Theorem forwarded_outcome_unchanged self name m args kwargs (r : outcome value) :
  String.prefix "_" name = false →
  object_getattribute self name = None →
  (name ∈ dimensionless_methods → is_dimensionless self = true) →
  expr_getattr (expr self) name = Some (AttrMethod m) →
  m (unwrap_arg <$> args) (unwrap_arg <$> kwargs) = r →
  (∀ e, r ≠ Ok (VExpr e)) →
  ∃ f, getattr self name = ([Getattr (expr self) name], Ok (Forwarded f))
       ∧ f args kwargs
         = ([Call (expr self) name (unwrap_arg <$> args) (unwrap_arg <$> kwargs)], r).
Proof.
  intros Hpre Hown Hdim Hattr Hm Hr. exists (method self name m). split.
  - apply getattr_forwarded; assumption.
  - unfold method, engine_call. cbn. rewrite Hm.
    destruct r as [v|e]; [|reflexivity].
    destruct v; try reflexivity. destruct (Hr e eq_refl).
Qed.

(** Attribute access raises [DimensionalityError] only for a name of the
    dimensionless-required set on a receiver that is not dimensionless, and
    then without any access to the engine. *)
Theorem gate_fires_only_when_required self name t (u1 u2 : Unit) msg :
  getattr self name = (t, Raise (DimensionalityError u1 u2 msg)) →
  name ∈ dimensionless_methods
  ∧ is_dimensionless self = false
  ∧ t = []
  ∧ u1 = unit self.
Proof.
  unfold getattr, __getattr__.
  destruct (object_getattribute self name); [discriminate|].
  destruct (String.prefix "_" name); [discriminate|].
  destruct (decide (name ∈ dimensionless_methods)) as [Hin|Hout].
  - unfold _require_dimensionless.
    destruct (is_dimensionless self) eqn:Hd; cbn.
    + unfold engine_getattr.
      destruct (expr_getattr (expr self) name) as [[v|m]|]; discriminate.
    + intros [= <- <- <- <-]. auto.
  - cbn. unfold engine_getattr.
    destruct (expr_getattr (expr self) name) as [[v|m]|]; discriminate.
Qed.

(** Attribute access never calls a method of the engine: it makes no
    access to the engine at all, or the single lookup of the name on the
    expression of the receiver. *)
Theorem getattr_makes_at_most_one_lookup self name :
  (getattr self name).1 = [] ∨ (getattr self name).1 = [Getattr (expr self) name].
Proof.
  unfold getattr, __getattr__.
  destruct (object_getattribute self name); [left; reflexivity|].
  destruct (String.prefix "_" name); [left; reflexivity|].
  destruct (decide (name ∈ dimensionless_methods)).
  - unfold _require_dimensionless.
    destruct (is_dimensionless self); cbn; [right|left; reflexivity].
    unfold engine_getattr.
    destruct (expr_getattr (expr self) name) as [[v|m]|]; reflexivity.
  - right. cbn. unfold engine_getattr.
    destruct (expr_getattr (expr self) name) as [[v|m]|]; reflexivity.
Qed.

(** ** The registry along a chain of operations *)

Lemma binary_op_same_dim_keeps a x op b :
  _binary_op_same_dim a x op = Ok b → ureg b = ureg a ∧ unit b = unit a.
Proof.
  unfold _binary_op_same_dim. destruct x as [o|k| | | | |]; try discriminate.
  - destruct (unit_ne (unit a) (unit o)); [destruct (to o (UnitObj (unit a)))|];
      cbn; try discriminate; intros [= <-]; auto.
  - cbn. intros [= <-]. auto.
Qed.

Lemma to_keeps_registry a (u : unit_arg) b : to a u = Ok b → ureg b = ureg a.
Proof.
  unfold to, convert. destruct (resolve_unit (ureg a) u) as [v|]; cbn;
    [|discriminate].
  destruct (conversion_factor (unit a) v); cbn; [|discriminate].
  intros [= <-]. reflexivity.
Qed.

Lemma derives_keeps_registry a b : derives a b → ureg b = ureg a.
Proof.
  destruct 1 as [a x b _ H|a x b _ H|a u b H|a b H|a b H|a b H|a k b H
                 |a name m args kwargs t e b Hm H].
  - apply (binary_op_same_dim_keeps a x OAdd b H).
  - apply (binary_op_same_dim_keeps a x OSub b H).
  - apply (to_keeps_registry a u b H).
  - injection H as <-. reflexivity.
  - injection H as <-. reflexivity.
  - injection H as <-. reflexivity.
  - unfold __rtruediv__ in H.
    destruct (resolve_unit (ureg a) (UnitStr "dimensionless")); cbn in H;
      [|discriminate]. injection H as <-. reflexivity.
  - rewrite (method_wraps_expression a name m args kwargs e Hm) in H.
    injection H as _ <-. reflexivity.
Qed.

(** However many operations that pass the registry on are chained, the
    result is on the registry of the first receiver. *)
Theorem registry_kept_along_chain a b :
  rtc derives a b → ureg b = ureg a.
Proof.
  induction 1 as [a|a b c Hstep _ IH]; [reflexivity|].
  rewrite IH. apply derives_keeps_registry, Hstep.
Qed.

(** ** Composition of the arithmetic *)

Lemma Qabs_Qopp_eq (p : Q) : Qabs (- p) = Qabs p.
Proof. destruct p as [n d]. unfold Qabs, Qopp. cbn. rewrite Z.abs_opp. reflexivity. Qed.

Lemma Qopp_Qopp_eq (p : Q) : (- - p)%Q = p.
Proof. destruct p as [n d]. unfold Qopp. cbn. rewrite Z.opp_involutive. reflexivity. Qed.

(** Negating twice, and taking the absolute value of the negation, keep
    unit and registry; row by row the first gives back the value and the
    second the absolute value of the operand. *)
Theorem negation_and_absolute_value a row :
  ∃ n nn an,
    __neg__ a = Ok n ∧ __neg__ n = Ok nn ∧ __abs__ n = Ok an
    ∧ unit nn = unit a ∧ ureg nn = ureg a
    ∧ unit an = unit a ∧ ureg an = ureg a
    ∧ eval row (expr nn) = eval row (expr a)
    ∧ eval row (expr an) = Qabs <$> eval row (expr a).
Proof.
  exists (mkUExpr (ENeg (expr a)) (unit a) (ureg a)),
         (mkUExpr (ENeg (ENeg (expr a))) (unit a) (ureg a)),
         (mkUExpr (EAbs (ENeg (expr a))) (unit a) (ureg a)).
  repeat (split; [reflexivity|]). cbn [expr eval].
  destruct (eval row (expr a)) as [p|]; cbn [fmap option_fmap option_map];
    [|split; reflexivity].
  rewrite Qopp_Qopp_eq, Qabs_Qopp_eq. split; reflexivity.
Qed.

(** ** The class's own surface *)

(** A name that the class body defines, [sqrt] and [alias] among them, is
    answered by the class itself whatever the engine expression offers
    under that name: the engine is not consulted. *)
Theorem class_members_shadow_engine self name :
  name ∈ class_members →
  getattr self name = ([], Ok (Own (OwnMember name))).
Proof.
  unfold class_members. rewrite elem_of_list_to_set.
  rewrite !elem_of_cons, elem_of_nil.
  intros H; repeat (destruct H as [->|H]; [vm_compute; reflexivity|]); destruct H.
Qed.

End Properties.

(** * The properties on the small instance *)

Import Demo.

(** C1: on operands built on a custom registry, [+] keeps the registry but
    [*], [/] and [**] return a [UExpr] on the default registry. *)
Theorem custom_registry_lost_by_mul_div_pow :
  col "distance" (UnitStr "furlong") (Some custom_ureg) = Ok dist
  ∧ col "distance2" (UnitStr "furlong") (Some custom_ureg) = Ok dist2
  ∧ custom_ureg ≠ default_ureg
  ∧ add dist (VUExpr dist2)
    = Ok (VUExpr (mkUExpr (EArith OAdd (ECol "distance") (ECol "distance2"))
                          furlong custom_ureg))
  ∧ binary_op BMul dist (VUExpr dist2)
    = Ok (VUExpr (mkUExpr (EArith OMul (ECol "distance") (ECol "distance2"))
                          (Prod furlong furlong) default_ureg))
  ∧ binary_op BDiv dist (VUExpr dist2)
    = Ok (VUExpr (mkUExpr (EArith ODiv (ECol "distance") (ECol "distance2"))
                          (Quot furlong furlong) default_ureg))
  ∧ binary_op BPow dist (VNum (SInt 2))
    = Ok (VUExpr (mkUExpr (EArith OPow (ECol "distance") (ELit (SInt 2)))
                          (Power furlong (SInt 2)) default_ureg)).
Proof. repeat split; try reflexivity. discriminate. Qed.


(** [a._secret] on a column in meters. *)
Lemma private_names_not_forwarded_witness :
  String.prefix "_" "_secret" = true
  ∧ object_getattribute a_m "_secret" = None
  ∧ getattr a_m "_secret"
    = ([], Raise (AttributeError "'UExpr' object has no attribute '_secret'")).
Proof.
  split; [reflexivity|split; [vm_compute; reflexivity|]].
  apply (private_names_not_forwarded a_m "_secret"); vm_compute; reflexivity.
Defined.

(** [a == 5] and [a != 5], as in [test_comparisons]. *)
Lemma equality_requires_UExpr_witness :
  is_UExpr (VNum (SInt 5)) = false
  ∧ compare CEq a_m (VNum (SInt 5))
    = Raise (TypeError "Equality comparison requires another UExpr")
  ∧ compare CNe a_m (VNum (SInt 5))
    = Raise (TypeError "Inequality comparison requires another UExpr").
Proof.
  split; [reflexivity|].
  apply (equality_requires_UExpr a_m (VNum (SInt 5))). reflexivity.
Defined.

(** Meters plus centimeters, as in [test_addition_different_unit]: the
    centimeters are scaled by 1/100 and the sum is in meters. *)
Lemma right_operand_converted_to_left_unit_witness :
  conversion_factor (unit b_cm) (unit a_m) = Some (1 # 100)%Q
  ∧ add a_m (VUExpr b_cm)
    = Ok (VUExpr (mkUExpr
                    (EArith OAdd (ECol "a")
                       (EArith OMul (ECol "b") (ELit (SFloat (1 # 100)))))
                    meter 0))
  ∧ compare CLt a_m (VUExpr b_cm)
    = Ok (VExpr (ECmp CLt (ECol "a")
                   (EArith OMul (ECol "b") (ELit (SFloat (1 # 100)))))).
Proof.
  split; [reflexivity|].
  destruct (right_operand_converted_to_left_unit a_m b_cm (1 # 100)%Q)
    as (Hadd & _ & Hcmp); [reflexivity|].
  split; [exact Hadd|exact (Hcmp CLt)].
Defined.

(** [log] on meters, [log] on a dimensionless column and [sum] on meters, as
    in [test_dimensionless_functions] and [test_aggregations]. *)
Lemma dimensionless_gate_and_unit_policy_witness :
  getattr a_m "log"
  = ([], Raise (DimensionalityError meter One "log requires a dimensionless quantity"))
  ∧ (∃ f, getattr x_dimless "log" = ([Getattr (ECol "x") "log"], Ok (Forwarded f))
          ∧ f [] ∅ = ([Call (ECol "x") "log" [] ∅],
                      Ok (VUExpr (mkUExpr (ECall "log" (ECol "x") []) One 0))))
  ∧ (∃ f, getattr a_m "sum" = ([Getattr (ECol "a") "sum"], Ok (Forwarded f))
          ∧ f [] ∅ = ([Call (ECol "a") "sum" [] ∅],
                      Ok (VUExpr (mkUExpr (ECall "sum" (ECol "a") []) meter 0)))).
Proof.
  split; [|split].
  - destruct (dimensionless_gate_and_unit_policy a_m "log"
                (call_node "log" (ECol "a")) [] ∅ (ECol "a")) as (Hgate & _ & _).
    apply Hgate; [apply (bool_decide_unpack _); vm_compute; exact I|vm_compute; reflexivity].
  - destruct (dimensionless_gate_and_unit_policy x_dimless "log"
                (call_node "log" (ECol "x")) [] ∅ (ECall "log" (ECol "x") []))
      as (_ & Hin & _).
    apply Hin; [apply (bool_decide_unpack _); vm_compute; exact I|vm_compute; reflexivity..].
  - destruct (dimensionless_gate_and_unit_policy a_m "sum"
                (call_node "sum" (ECol "a")) [] ∅ (ECall "sum" (ECol "a") []))
      as (_ & _ & Hout).
    apply Hout; [apply (bool_decide_unpack _); vm_compute; exact I|vm_compute; reflexivity..].
Defined.


(** ** The further properties on the small instance *)

(** A furlong column on the custom registry, and the same name on the
    default registry, which does not define it. *)
Lemma col_succeeds_iff_witness :
  col "distance" (UnitStr "furlong") (Some custom_ureg) = Ok dist
  ∧ col "distance" (UnitStr "furlong") None ≠ Ok dist.
Proof.
  split.
  - apply (col_succeeds_iff (UE:=units) "distance" (UnitStr "furlong") (Some custom_ureg) dist).
    repeat split.
  - intros H.
    apply (col_succeeds_iff (UE:=units) "distance" (UnitStr "furlong") None dist) in H.
    destruct H as (H & _). vm_compute in H. discriminate H.
Defined.

(** Meters to centimeters, as in the end-to-end test. *)
Lemma to_succeeds_iff_witness :
  to a_m (UnitStr "cm")
  = Ok (mkUExpr (EArith OMul (ECol "a") (ELit (SFloat (100 # 1)))) centimeter 0).
Proof.
  apply (to_succeeds_iff a_m (UnitStr "cm")).
  exists (100 # 1)%Q. repeat split.
Defined.

(** Meters and seconds. *)
Lemma conversion_error_propagates_witness :
  add a_m (VUExpr t_s) = Raise (DimensionalityError (UE:=units) (Named "second") meter "")
  ∧ compare CEq a_m (VUExpr t_s) = Raise (DimensionalityError (UE:=units) (Named "second") meter "").
Proof.
  destruct (conversion_error_propagates (UE:=units) a_m t_s
              (DimensionalityError (UE:=units) (Named "second") meter ""))
    as (Hadd & _ & Hcmp); [reflexivity..|].
  split; [exact Hadd|exact (Hcmp CEq)].
Defined.

(** One meter plus fifty centimeters. *)
Lemma rows_of_sum_and_difference_witness :
  ∃ s d,
    add a_m (VUExpr b_cm) = Ok (VUExpr s)
    ∧ eval (λ c, if decide (c = "a") then 1%Q else 50%Q) (expr s)
      = Some (1 + 50 * (1 # 100))%Q
    ∧ sub a_m (VUExpr b_cm) = Ok (VUExpr d)
    ∧ eval (λ c, if decide (c = "a") then 1%Q else 50%Q) (expr d)
      = Some (1 - 50 * (1 # 100))%Q.
Proof.
  apply (rows_of_sum_and_difference a_m b_cm (1 # 100)%Q 1%Q 50%Q
           (λ c, if decide (c = "a") then 1%Q else 50%Q)); reflexivity.
Defined.

(** [a < 5] and [a < "x"]. *)
Lemma ordering_with_other_operands_witness :
  compare CLt a_m (VNum (SInt 5)) = Ok (VExpr (ECmp CLt (ECol "a") (ELit (SInt 5))))
  ∧ compare CLt a_m (VStr "x")
    = Raise (TypeError "Unsupported operand type(s) for comparison: '<class 'polars_units.uexpr.UExpr'>' and '<class 'str'>'").
Proof.
  split.
  - apply (ordering_with_other_operands CLt a_m (VNum (SInt 5)));
      [discriminate..|reflexivity].
  - apply (ordering_with_other_operands CLt a_m (VStr "x"));
      [discriminate..|reflexivity].
Defined.

(** [2 ** a] on meters. *)
Lemma reflected_power_is_not_gated_witness :
  is_dimensionless a_m = false
  ∧ scalar_binary_op BPow (SInt 2) a_m
    = Ok (VUExpr (mkUExpr (EArith OPow (ELit (SInt 2)) (ECol "a")) meter 0)).
Proof.
  split; [reflexivity|].
  apply (reflected_power_is_not_gated (SInt 2) a_m). reflexivity.
Defined.

(** [a.meta] is passed through and [a.nonexistent] is not found. *)
Lemma getattr_engine_lookup_witness :
  getattr a_m "meta"
  = ([Getattr (ECol "a") "meta"],
     Ok (Plain (VObj "polars.expr.meta" "ExprMetaNameSpace" None None)))
  ∧ getattr a_m "nonexistent"
    = ([Getattr (ECol "a") "nonexistent"],
       Raise (AttributeError "'Expr' object has no attribute 'nonexistent'")).
Proof.
  assert (Hout : ∀ name, bool_decide (name ∈ dimensionless_methods) = false →
                 name ∈ dimensionless_methods → is_dimensionless a_m = true).
  { intros name Hb Hin. apply (bool_decide_pack _) in Hin.
    rewrite Hb in Hin. destruct Hin. }
  split.
  - rewrite (getattr_engine_lookup a_m "meta");
      [reflexivity|vm_compute; reflexivity..|].
    apply Hout. vm_compute. reflexivity.
  - rewrite (getattr_engine_lookup a_m "nonexistent");
      [reflexivity|vm_compute; reflexivity..|].
    apply Hout. vm_compute. reflexivity.
Defined.

(** [a.len()] returns the number of the engine. *)
Lemma forwarded_outcome_unchanged_witness :
  ∃ f, getattr a_m "len" = ([Getattr (ECol "a") "len"], Ok (Forwarded f))
       ∧ f [] ∅ = ([Call (ECol "a") "len" [] ∅], Ok (VNum (SInt 4))).
Proof.
  destruct (forwarded_outcome_unchanged a_m "len" (λ _ _, Ok (VNum (SInt 4))) [] ∅
              (Ok (VNum (SInt 4)))) as (f & Hget & Hcall);
    try (vm_compute; reflexivity).
  - intros H. apply (bool_decide_pack _) in H. vm_compute in H. destruct H.
  - intros e H. discriminate H.
  - exists f. split; [exact Hget|exact Hcall].
Defined.

(** [a.log] on meters. *)
Lemma gate_fires_only_when_required_witness :
  "log" ∈ dimensionless_methods ∧ is_dimensionless a_m = false.
Proof.
  destruct (gate_fires_only_when_required (UE:=units) a_m "log" [] meter One
              "log requires a dimensionless quantity") as (Hin & Hdim & _);
    [vm_compute; reflexivity|].
  split; [exact Hin|exact Hdim].
Defined.

(** Furlongs to meters, negated, plus a furlong column of the same
    registry. *)
Lemma registry_kept_along_chain_witness :
  ∃ b c d,
    to dist (UnitStr "meter") = Ok b
    ∧ __neg__ b = Ok c
    ∧ __add__ c (VUExpr dist2) = Ok d
    ∧ ureg d = custom_ureg.
Proof.
  eexists _, _, _.
  split; [reflexivity|]. split; [reflexivity|]. split; [reflexivity|].
  apply (registry_kept_along_chain dist).
  eapply rtc_l; [apply (derives_to dist (UnitStr "meter")); reflexivity|].
  eapply rtc_l; [apply derives_neg; reflexivity|].
  eapply rtc_l; [apply (derives_add _ (VUExpr dist2)); reflexivity|].
  apply rtc_refl.
Defined.

(** [a.sqrt] is the method of the class. *)
Lemma class_members_shadow_engine_witness :
  getattr a_m "sqrt" = ([], Ok (Own (OwnMember "sqrt"))).
Proof.
  apply (class_members_shadow_engine a_m "sqrt").
  apply (bool_decide_unpack _). vm_compute. exact I.
Defined.

(** Furlongs to meters and back, on the custom registry. *)
Lemma to_and_back_witness :
  ∃ b,
    to dist (UnitStr "meter") = Ok b
    ∧ unit b = meter ∧ ureg b = custom_ureg
    ∧ to b (UnitObj furlong)
      = Ok (mkUExpr (EArith OMul
                       (EArith OMul (ECol "distance") (ELit (SFloat (201168 # 1000))))
                       (ELit (SFloat (1000 # 201168))))
                    furlong custom_ureg).
Proof.
  apply (to_and_back dist (UnitStr "meter") meter (201168 # 1000)%Q (1000 # 201168)%Q);
    reflexivity.
Defined.
